(** * check_files_submitted.py: the changed-file counter of the pull-request workflow

    The script spawns [git diff --name-only origin/<base>...<pr>], splits the
    captured standard output into lines and exits with status 1 when more than
    20 lines came back.  This development embeds the script shallowly:

    - Python text is a list of Unicode code points;
    - the interpreter state that the script can change is a [world]: the text
      written to standard output and the commands handed to [subprocess.Popen];
    - Python exceptions are a result type threaded through a small state and
      error monad, so that [try ... except Exception] and [sys.exit] keep their
      meaning;
    - the child process is an oracle from the command line to what
      [Popen(...).communicate()] delivers;
    - [argparse] is modelled for the one parser the script builds (two
      positional arguments and the automatic [-h/--help] option), after
      [argparse.py] of CPython 3.11;
    - [print] always succeeds, and no signal interrupts the run. *)

From Stdlib Require Import String Ascii.
From Stdlib Require Import List NArith ZArith Bool Lia.
Import ListNotations.
Local Open Scope list_scope.

(** ** Python text *)

Definition char := N.
Definition str := list char.

(** An ASCII literal as Python text. *)
Definition py (s : string) : str := map N_of_ascii (list_ascii_of_string s).
Arguments py s%_string.

Fixpoint str_eqb (a b : str) : bool :=
  match a, b with
  | [], [] => true
  | x :: a', y :: b' => N.eqb x y && str_eqb a' b'
  | _, _ => false
  end.

(** [a.startswith(prefix)] *)
Fixpoint startswith (a prefix : str) : bool :=
  match prefix, a with
  | [], _ => true
  | p :: prefix', x :: a' => N.eqb x p && startswith a' prefix'
  | _ :: _, [] => false
  end.

(** [c in s] for a single character [c]. *)
Definition contains (c : char) (s : str) : bool := existsb (N.eqb c) s.

(** [s.split(c, 1)] when [c] occurs in [s]: the text before the first [c] and
    the text after it. *)
Fixpoint split_once (c : char) (s : str) : option (str * str) :=
  match s with
  | [] => None
  | x :: s' =>
      if N.eqb x c then Some ([], s')
      else match split_once c s' with
           | Some (before, after) => Some (x :: before, after)
           | None => None
           end
  end.

Definition LF : char := 10%N.
Definition CR : char := 13%N.

(** The code points at which [str.splitlines] ends a line: LF, VT, FF, CR,
    FS, GS, RS, NEL, LINE SEPARATOR and PARAGRAPH SEPARATOR. *)
Definition line_boundaries : list char :=
  [10; 11; 12; 13; 28; 29; 30; 133; 8232; 8233]%N.

Definition is_linebreak (c : char) : bool := existsb (N.eqb c) line_boundaries.

(** [str.splitlines()] without [keepends].  The scan keeps the line read so
    far in [line]; a boundary closes it, CR immediately followed by LF counts
    as one boundary, and text left after the last boundary is a final line.
    Nothing is appended for the empty remainder after a boundary. *)
Fixpoint splitlines_from (line s : str) : list str :=
  match s with
  | [] => match line with [] => [] | _ :: _ => [line] end
  | c :: rest =>
      if is_linebreak c then
        line ::
          (if N.eqb c CR then
             match rest with
             | d :: rest' =>
                 if N.eqb d LF then splitlines_from [] rest'
                 else splitlines_from [] rest
             | [] => splitlines_from [] rest
             end
           else splitlines_from [] rest)
      else splitlines_from (line ++ [c]) rest
  end.

Definition splitlines (s : str) : list str := splitlines_from [] s.

(** A path list written the way the tool writes it: every entry followed by
    one newline. *)
Definition unlines (ls : list str) : str := concat (map (fun l => l ++ [LF]) ls).

(** ** Interpreter state, exceptions and the monad of the script *)

(** What a run can change outside itself: the text written to standard output
    and the command lines handed to [subprocess.Popen], oldest first.  What
    [argparse] and the interpreter write to standard error is not recorded. *)
Record world := mkWorld { stdout : str; spawned : list (list str) }.

Definition initial_world : world := mkWorld [] [].

(** The two kinds of exception the script meets.  [Exception e] stands for
    any instance of [Exception], carrying [str(e)]; [SystemExit] is raised by
    [sys.exit] and derives from [BaseException] only, so [except Exception]
    lets it through. *)
Inductive exn :=
| Exception (message : str)
| SystemExit (code : Z).

Inductive result (A : Type) :=
| Return (a : A)
| Raise (e : exn).
Arguments Return {A} a.
Arguments Raise {A} e.

Definition M (A : Type) : Type := world -> result A * world.

Definition ret {A} (a : A) : M A := fun w => (Return a, w).

Definition bind {A B} (c : M A) (k : A -> M B) : M B :=
  fun w =>
    match c w with
    | (Return a, w') => k a w'
    | (Raise e, w') => (Raise e, w')
    end.

Declare Scope py_scope.
Delimit Scope py_scope with py_m.
Notation "x <- c ;; k" := (bind c (fun x => k))
  (at level 61, c at next level, right associativity) : py_scope.
Notation "' pat <- c ;; k" := (bind c (fun x => match x with pat => k end))
  (at level 61, pat pattern, c at next level, right associativity) : py_scope.
Notation "c ;; k" := (bind c (fun _ => k))
  (at level 61, right associativity) : py_scope.
Local Open Scope py_scope.

(** [sys.stdout.write(text)] *)
Definition write (text : str) : M unit :=
  fun w => (Return tt, mkWorld (stdout w ++ text) (spawned w)).

(** [print(text)]: the text and a newline. *)
Definition print (text : str) : M unit := write (text ++ [LF]).

(** [sys.exit(code)] *)
Definition sys_exit {A} (code : Z) : M A := fun w => (Raise (SystemExit code), w).

(** [try: body / except Exception as e: handler(str(e))] *)
Definition try_except_Exception {A} (body : M A) (handler : str -> M A) : M A :=
  fun w =>
    match body w with
    | (Raise (Exception e), w') => handler e w'
    | finished => finished
    end.

(** ** The child process *)

(** What [Popen(args, stdout=PIPE, stderr=PIPE, universal_newlines=True)]
    followed by [communicate()] delivers: either the process ran to its end,
    with its return code and both captured streams as text (already decoded,
    with CR LF and CR turned into LF by the text mode), or the launch or the
    communication raised an [Exception] (executable not found, any other
    [OSError], undecodable output, ...). *)
Inductive completion :=
| Completed (returncode : Z) (output error : str)
| LaunchFailed (e : str).

(** The tool as the script sees it. *)
Definition subprocess := list str -> completion.

Definition Popen_communicate (git : subprocess) (args : list str) : M (Z * str * str) :=
  fun w =>
    let w' := mkWorld (stdout w) (spawned w ++ [args]) in
    match git args with
    | Completed returncode output error => (Return (returncode, output, error), w')
    | LaunchFailed e => (Raise (Exception e), w')
    end.

(** ** Values and the library functions taken from the interpreter *)

(** The values [argparse] stores for a positional argument: normally the
    argument string, and a list when the strings matched for it are not
    exactly one. *)
Inductive pyval :=
| PyStr (s : str)
| PyList (items : list str).

(** Parts of the interpreter the script relies on and that are tables or
    formatting code of the Python library: which code points the regular
    expression [\d] matches, [repr] of a string, and the help text the parser
    renders for the terminal at hand. *)
Class Runtime := {
  isdecimal : char -> bool;
  repr : str -> str;
  format_help : str
}.

(** [", ".join(items)] *)
Fixpoint join_comma (items : list str) : str :=
  match items with
  | [] => []
  | [x] => x
  | x :: rest => x ++ py ", " ++ join_comma rest
  end.

Section Script.
Context {rt : Runtime}.

(** What an f-string substitutes for [{v}]: [str(v)]. *)
Definition format (v : pyval) : str :=
  match v with
  | PyStr s => s
  | PyList items => py "[" ++ join_comma (map repr items) ++ py "]"
  end.

(** ** argparse, for the parser of [main] *)

Definition dash : char := 45%N.
Definition double_dash : str := [dash; dash].

(** The option strings the parser knows; [-h] and [--help] are added by
    [ArgumentParser] itself and belong to the one help action. *)
Definition option_strings : list str := [py "-h"; py "--help"].

Definition is_option_string (s : str) : bool := existsb (str_eqb s) option_strings.

Inductive action := HelpAction.

(** [(action, option_string, explicit_arg)] *)
Definition option_tuple : Type := option action * str * option str.

(** [_get_option_tuples]: the abbreviations of long options and the short
    options with an argument glued on.  [None] is the branch that reports an
    unexpected option string. *)
Definition get_option_tuples (option_string : str) : option (list option_tuple) :=
  match option_string with
  | c0 :: c1 :: _ =>
      if N.eqb c0 dash && N.eqb c1 dash then
        let '(option_prefix, explicit_arg) :=
          match split_once 61%N option_string with
          | Some (before, after) => (before, Some after)
          | None => (option_string, None)
          end in
        Some (map (fun o => (Some HelpAction, o, explicit_arg))
                  (filter (fun o => startswith o option_prefix) option_strings))
      else if N.eqb c0 dash && negb (N.eqb c1 dash) then
        let short_option_prefix := firstn 2 option_string in
        let short_explicit_arg := skipn 2 option_string in
        Some (flat_map
                (fun o =>
                   if str_eqb o short_option_prefix
                   then [(Some HelpAction, o, Some short_explicit_arg)]
                   else if startswith o option_string
                        then [(Some HelpAction, o, None)]
                        else [])
                option_strings)
      else None
  | _ => None
  end.

(** The regular expression [^-\d+$|^-\d*\.\d+$]. *)
Definition digits1 (s : str) : bool :=
  match s with [] => false | _ :: _ => forallb isdecimal s end.

Fixpoint digits_dot_digits1 (s : str) : bool :=
  match s with
  | [] => false
  | c :: rest =>
      (N.eqb c 46%N && digits1 rest) || (isdecimal c && digits_dot_digits1 rest)
  end.

Definition full_negative_number (s : str) : bool :=
  match s with
  | c :: rest => N.eqb c dash && (digits1 rest || digits_dot_digits1 rest)
  | [] => false
  end.

(** [$] also matches just before a newline that ends the text. *)
Definition negative_number_matcher (s : str) : bool :=
  full_negative_number s
  || match rev s with
     | c :: before => N.eqb c LF && full_negative_number (rev before)
     | [] => false
     end.

Inductive classification :=
| Positional
| Optional (t : option_tuple)
| Rejected.

(** [_parse_optional]: is the argument string an option, and which. *)
Definition parse_optional (arg_string : str) : classification :=
  match arg_string with
  | [] => Positional
  | c :: _ =>
      if negb (N.eqb c dash) then Positional
      else if is_option_string arg_string
      then Optional (Some HelpAction, arg_string, None)
      else if Nat.eqb (length arg_string) 1 then Positional
      else
        let with_equals :=
          match split_once 61%N arg_string with
          | Some (option_string, explicit_arg) =>
              if is_option_string option_string
              then Some (Some HelpAction, option_string, Some explicit_arg)
              else None
          | None => None
          end in
        match with_equals with
        | Some t => Optional t
        | None =>
            match get_option_tuples arg_string with
            | None => Rejected
            | Some (_ :: _ :: _) => Rejected
            | Some [t] => Optional t
            | Some [] =>
                if negative_number_matcher arg_string then Positional
                else if contains 32%N arg_string then Positional
                else Optional (None, arg_string, None)
            end
        end
  end.

(** One entry of the pattern [_parse_known_args] builds over the argument
    strings: [Arg] (written A there) for an argument, [Opt] (O) for an option,
    [Dash] (-) for the first [--]; everything after that [--] is an argument. *)
Inductive token :=
| Arg (arg_string : str)
| Opt (arg_string : str) (t : option_tuple)
| Dash.

Fixpoint arg_strings_pattern (arg_strings : list str) : option (list token) :=
  match arg_strings with
  | [] => Some []
  | arg_string :: rest =>
      if str_eqb arg_string double_dash then Some (Dash :: map Arg rest)
      else
        match parse_optional arg_string, arg_strings_pattern rest with
        | Rejected, _ => None
        | _, None => None
        | Positional, Some pattern => Some (Arg arg_string :: pattern)
        | Optional t, Some pattern => Some (Opt arg_string t :: pattern)
        end
  end.

Inductive consumed :=
| Skipped          (* no action for the option string: it joins the extras *)
| PrintHelp        (* the help action is taken *)
| ArgumentError.   (* ignored explicit argument *)

(** [consume_optional] when the option came with an explicit argument.  The
    help action takes no argument, so after a single-dash option string the
    tail is read as further single-dash options; anything else is an error. *)
Fixpoint consume_explicit (option_string explicit_arg : str) {struct explicit_arg}
  : consumed :=
  match explicit_arg with
  | [] => ArgumentError
  | c :: tail =>
      if negb (N.eqb (nth 1 option_string 0%N) dash) then
        let option_string' := [dash; c] in
        if is_option_string option_string' then
          match tail with
          | [] => PrintHelp
          | _ :: _ => consume_explicit option_string' tail
          end
        else ArgumentError
      else ArgumentError
  end.

Definition consume_optional (t : option_tuple) : consumed :=
  match t with
  | (None, _, _) => Skipped
  | (Some HelpAction, _, None) => PrintHelp
  | (Some HelpAction, option_string, Some explicit_arg) =>
      consume_explicit option_string explicit_arg
  end.

(** [list.remove(x)] that ignores a missing [x]. *)
Fixpoint remove_first (x : str) (l : list str) : list str :=
  match l with
  | [] => []
  | y :: l' => if str_eqb y x then l' else y :: remove_first x l'
  end.

(** [_get_values] for a positional with [nargs=None] and no [type]: the
    first [--] among the matched strings is dropped; exactly one string left
    is the value, anything else is stored as a list. *)
Definition get_values (arg_strings : list str) : pyval :=
  match remove_first double_dash arg_strings with
  | [arg_string] => PyStr arg_string
  | others => PyList others
  end.

Record Namespace := mkNamespace { base_branch : pyval; pr_branch : pyval }.

Inductive parsed :=
| Parsed (args : Namespace)
| HelpExit       (* help printed, [parser.exit()] with status 0 *)
| ErrorExit.     (* [parser.error(...)]: usage on standard error, status 2 *)

(** The alternation of [consume_positionals] and [consume_optional], read
    left to right.  [seen] holds the values of the positionals filled so far
    (at most two: [base_branch], then [pr_branch]).  Each positional matches
    [-*A-*]: an argument takes a [--] right after it into its strings
    ([after_value]), or a [--] waiting in front of it ([dash_waiting]); a
    [--] no positional takes ends among the extras.  The help action ends
    the parse where it stands; an option without action joins the extras
    and the error is reported at the end. *)
Fixpoint consume (pattern : list token) (seen : list pyval) (extras : list str)
    (after_value dash_waiting : bool) : parsed :=
  match pattern with
  | [] =>
      let extras := if dash_waiting then extras ++ [double_dash] else extras in
      match seen, extras with
      | [base; pr], [] => Parsed (mkNamespace base pr)
      | _, _ => ErrorExit
      end
  | Opt arg_string t :: rest =>
      match consume_optional t with
      | Skipped => consume rest seen (extras ++ [arg_string]) false dash_waiting
      | PrintHelp => HelpExit
      | ArgumentError => ErrorExit
      end
  | Arg arg_string :: rest =>
      let waiting := if dash_waiting then [double_dash] else [] in
      if Nat.ltb (length seen) 2
      then consume rest (seen ++ [get_values (waiting ++ [arg_string])]) extras true false
      else consume rest seen (extras ++ waiting ++ [arg_string]) false false
  | Dash :: rest =>
      if after_value then consume rest seen extras false false
      else consume rest seen extras false true
  end.

(** What [parser.parse_args()] comes to for the argument strings
    [sys.argv[1:]]: the namespace, the exit of the help action, or the exit of
    [parser.error] (an argument string rejected, an option used wrongly, a
    required positional missing, or arguments left over). *)
Definition parse_known_args (arg_strings : list str) : parsed :=
  match arg_strings_pattern arg_strings with
  | None => ErrorExit
  | Some pattern => consume pattern [] [] false false
  end.

(** The same inside the script: the help text goes to standard output, and
    both exits are [SystemExit]. *)
Definition parse_args (arg_strings : list str) : M Namespace :=
  match parse_known_args arg_strings with
  | Parsed args => ret args
  | HelpExit => write format_help ;; sys_exit 0
  | ErrorExit => sys_exit 2
  end.

(** ** The script *)

(** [get_changed_files(base_branch, pr_branch)].  The arguments are the
    values [main] passes on from the namespace. *)
Definition get_changed_files (git : subprocess) (base_branch pr_branch : pyval)
  : M (list str) :=
  try_except_Exception
    ('(returncode, git_diff_output, git_diff_error) <-
        Popen_communicate git
          [py "git"; py "diff"; py "--name-only";
           py "origin/" ++ format base_branch ++ py "..." ++ format pr_branch] ;;
     if negb (Z.eqb returncode 0) then
       print (py "Error: " ++ git_diff_error) ;;
       ret []
     else
       let changed_files := splitlines git_diff_output in
       ret changed_files)
    (fun e =>
       print (py "Error: " ++ e) ;;
       ret []).

(** [main()], with [argv] for [sys.argv[1:]]. *)
Definition main (git : subprocess) (argv : list str) : M unit :=
  args <- parse_args argv ;;
  let base_branch := base_branch args in
  let pr_branch := pr_branch args in
  changed_files <- get_changed_files git base_branch pr_branch ;;
  if Nat.ltb 20 (length changed_files) then
    print (py "Number of changed files exceeds 20.") ;;
    sys_exit 1
  else ret tt.

(** The exit status of the interpreter that ran [main()] as the last
    statement of the script: 0 after a normal return, the code of a
    [SystemExit], 1 after any other exception (reported with a traceback). *)
Definition exit_status {A} (r : result A) : Z :=
  match r with
  | Return _ => 0
  | Raise (SystemExit code) => code
  | Raise (Exception _) => 1
  end.

(** [python check_files_submitted.py argv...] with [git] as the tool. *)
Definition run_script (git : subprocess) (argv : list str) : Z * world :=
  let '(r, w) := main git argv initial_world in (exit_status r, w).

End Script.

(** ** Vocabulary of the statements *)

Local Open Scope Z_scope.

(** The fixed line of [main]. *)
Definition over_limit_message : str := py "Number of changed files exceeds 20.".

(** The tool did not deliver a result: it ended with a return code other
    than 0, or running it raised. *)
Definition tool_failed (c : completion) : Prop :=
  match c with
  | Completed returncode _ _ => returncode <> 0
  | LaunchFailed _ => True
  end.

Definition is_argument (t : token) : bool :=
  match t with Arg _ => true | _ => false end.

Section Vocabulary.
Context {rt : Runtime}.

(** The command line [get_changed_files] hands to [Popen]. *)
Definition diff_command (base_branch pr_branch : pyval) : list str :=
  [py "git"; py "diff"; py "--name-only";
   py "origin/" ++ format base_branch ++ py "..." ++ format pr_branch].

(** How many of the argument strings the parser reads as arguments, that is,
    how many it has for the two positionals. *)
Definition positional_count (argv : list str) : nat :=
  match arg_strings_pattern argv with
  | Some pattern => length (filter is_argument pattern)
  | None => 0%nat
  end.


End Vocabulary.

(** A runtime for the examples: ASCII digits, [repr] for text without quotes
    or escapes, and the help text for a terminal of 80 columns. *)
Definition example_runtime : Runtime := {|
  isdecimal := fun c => (N.leb 48 c && N.leb c 57)%bool;
  repr := fun s => py "'" ++ s ++ py "'";
  format_help := py "usage: check_files_submitted.py [-h] base_branch pr_branch

Check the number of changed files.

positional arguments:
  base_branch  Base branch name
  pr_branch    Pull request branch name

options:
  -h, --help   show this help message and exit
"
|}.

(** Text that holds no line boundary. *)
Definition one_line (l : str) : bool := forallb (fun c => negb (is_linebreak c)) l.

(** ** Concrete tools and command lines *)

Definition example_argv : list str := [py "main"; py "feature-x"].

Definition example_args : Namespace :=
  mkNamespace (PyStr (py "main")) (PyStr (py "feature-x")).

Definition example_command : list str :=
  [py "git"; py "diff"; py "--name-only"; py "origin/main...feature-x"].


(** A tool that lists the given paths, one per line. *)
Definition git_lists (paths : list str) : subprocess :=
  fun _ => Completed 0 (unlines paths) [].


(** A tool that rejects the revisions. *)
Definition git_fatal : subprocess :=
  fun _ => Completed 128 [] (py "fatal: bad revision").

(** No tool at all. *)
Definition git_missing : subprocess :=
  fun _ => LaunchFailed (py "[Errno 2] No such file or directory: 'git'").

Definition example_paths : list str :=
  [py "src/app.ts"; py "README.md"; py "src/app.ts"].

(** Twenty paths and one blank line: twenty-one entries. *)
Definition lines_with_blank : list str := repeat (py "f") 10 ++ [[]] ++ repeat (py "f") 10.

(** ** Further vocabulary *)

(** How many line boundaries a text holds. *)
Definition count_boundaries (s : str) : nat := length (filter is_linebreak s).

(** The argument string starts with the prefix character of options. *)
Definition begins_with_dash (arg_string : str) : bool :=
  match arg_string with
  | c :: _ => N.eqb c 45%N
  | [] => false
  end.

Definition is_option (t : token) : bool :=
  match t with Opt _ _ => true | _ => false end.

Section FurtherVocabulary.
Context {rt : Runtime}.

(** How many of the argument strings the parser reads as options, known to
    it or not. *)
Definition option_count (argv : list str) : nat :=
  match arg_strings_pattern argv with
  | Some pattern => length (filter is_option pattern)
  | None => 0%nat
  end.

End FurtherVocabulary.

(** A tool whose output names one path with a form feed inside. *)
Definition git_form_feed : subprocess :=
  fun _ => Completed 0 (py "docs/a" ++ [12%N] ++ py "b.md" ++ [LF]) [].


Section HelpVocabulary.
Context {rt : Runtime}.


End HelpVocabulary.

(** A tool whose output is one line, a path with the Unicode line separator
    U+2028 inside. *)
Definition git_line_separator : subprocess :=
  fun _ => Completed 0 (unlines [py "docs/a" ++ [8232%N] ++ py "b.md"]) [].


(** ** Lemmas on [splitlines] *)

Arguments is_linebreak : simpl never.

Lemma is_linebreak_LF : is_linebreak LF = true.
Proof. reflexivity. Qed.

Lemma not_linebreak_not_LF (c : char) : is_linebreak c = false -> N.eqb c LF = false.
Proof.
  intros Hc. destruct (N.eqb_spec c LF) as [->|]; [discriminate Hc|reflexivity].
Qed.

Lemma splitlines_from_line (l : str) :
  one_line l = true ->
  forall line s,
    splitlines_from line (l ++ LF :: s) = (line ++ l) :: splitlines_from [] s.
Proof.
  induction l as [|c l IH]; intros Hl line s.
  - cbn [app splitlines_from]. rewrite is_linebreak_LF, app_nil_r. reflexivity.
  - cbn in Hl. apply andb_true_iff in Hl as [Hc Hl].
    apply negb_true_iff in Hc.
    cbn [app splitlines_from]. rewrite Hc, (IH Hl), <- app_assoc.
    reflexivity.
Qed.

Lemma splitlines_unlines (lines : list str) :
  forallb one_line lines = true ->
  splitlines (unlines lines) = lines.
Proof.
  unfold splitlines, unlines.
  induction lines as [|l lines IH]; intros H; [reflexivity|].
  cbn in H. apply andb_true_iff in H as [Hl H].
  cbn [map concat]. rewrite <- app_assoc. cbn [app].
  rewrite (splitlines_from_line l Hl). cbn [app].
  now rewrite (IH H).
Qed.

Lemma splitlines_from_last_char (line : str) (c : char) :
  is_linebreak c = false ->
  splitlines_from line [c; LF] = splitlines_from line [c].
Proof.
  intros Hc. cbn [splitlines_from]. rewrite Hc, is_linebreak_LF. cbn.
  destruct (line ++ [c]) eqn:E; [destruct line; discriminate|reflexivity].
Qed.

Lemma splitlines_from_final_newline (n : nat) :
  forall s, (length s <= n)%nat ->
  forall line c, is_linebreak c = false ->
    splitlines_from line (s ++ [c; LF]) = splitlines_from line (s ++ [c]).
Proof.
  induction n as [|n IH]; intros s Hn line c Hc.
  - destruct s; [|cbn in Hn; lia]. now apply splitlines_from_last_char.
  - destruct s as [|x s]; [now apply splitlines_from_last_char|].
    cbn in Hn. cbn [app splitlines_from].
    destruct (is_linebreak x); [|apply IH; [lia|exact Hc]].
    f_equal. destruct (N.eqb x CR); [|apply IH; [lia|exact Hc]].
    destruct s as [|d s]; cbn [app].
    + rewrite (not_linebreak_not_LF c Hc).
      apply (IH []); [cbn; lia|exact Hc].
    + cbn in Hn. destruct (N.eqb d LF).
      * apply IH; [lia|exact Hc].
      * apply (IH (d :: s)); [cbn; lia|exact Hc].
Qed.

(** ** Lemmas on the script *)

Section ScriptLemmas.
Context {rt : Runtime}.

(** [get_changed_files], branch by branch. *)
Lemma get_changed_files_outcome (git : subprocess) (base pr : pyval) (w : world) :
  get_changed_files git base pr w =
  let started := mkWorld (stdout w) (spawned w ++ [diff_command base pr]) in
  let reported text :=
    mkWorld (stdout w ++ py "Error: " ++ text ++ [LF])
            (spawned w ++ [diff_command base pr]) in
  match git (diff_command base pr) with
  | Completed returncode output error =>
      if Z.eqb returncode 0 then (Return (splitlines output), started)
      else (Return [], reported error)
  | LaunchFailed e => (Return [], reported e)
  end.
Proof.
  unfold get_changed_files, try_except_Exception, bind, Popen_communicate.
  fold (diff_command base pr).
  destruct (git (diff_command base pr)) as [returncode output error|e].
  - destruct (Z.eqb returncode 0); reflexivity.
  - reflexivity.
Qed.

(** A run whose arguments parse: [main] after [parse_args]. *)
Lemma run_script_parsed (git : subprocess) (argv : list str) (args : Namespace) :
  parse_known_args argv = Parsed args ->
  run_script git argv =
  match get_changed_files git (base_branch args) (pr_branch args) initial_world with
  | (Return changed_files, w) =>
      if Nat.ltb 20 (length changed_files)
      then (1, mkWorld (stdout w ++ over_limit_message ++ [LF]) (spawned w))
      else (0, w)
  | (Raise e, w) => (exit_status (@Raise unit e), w)
  end.
Proof.
  intros Hparse. unfold run_script, main, parse_args, bind. rewrite Hparse.
  cbn [ret].
  destruct (get_changed_files git (base_branch args) (pr_branch args) initial_world)
    as [[changed_files|e] w]; [|reflexivity].
  destruct (Nat.ltb 20 (length changed_files)); reflexivity.
Qed.

(** A run whose arguments do not parse ends in the parser. *)
Lemma run_script_help (git : subprocess) (argv : list str) :
  parse_known_args argv = HelpExit ->
  run_script git argv = (0, mkWorld format_help []).
Proof.
  intros Hparse. unfold run_script, main, parse_args, bind. now rewrite Hparse.
Qed.

Lemma run_script_error (git : subprocess) (argv : list str) :
  parse_known_args argv = ErrorExit ->
  run_script git argv = (2, initial_world).
Proof.
  intros Hparse. unfold run_script, main, parse_args, bind. now rewrite Hparse.
Qed.




End ScriptLemmas.

(** ** The properties of the script *)

Section Properties.
Context {rt : Runtime}.

(** C1.  When the arguments parse and the diff tool succeeds (return code 0),
    [get_changed_files] returns the lines of its output, and with [L] their
    number the script ends with exit code 1 exactly when [L > 20] and with
    exit code 0 exactly when [L <= 20]; so 20 files give 0 and 21 give 1. *)
Theorem main_exit_code_threshold
    (git : subprocess) (argv : list str) (args : Namespace) (output error : str) :
  parse_known_args argv = Parsed args ->
  git (diff_command (base_branch args) (pr_branch args)) = Completed 0 output error ->
  fst (get_changed_files git (base_branch args) (pr_branch args) initial_world)
    = Return (splitlines output) /\
  let L := length (splitlines output) in
  let code := fst (run_script git argv) in
  (code = 1 <-> (20 < L)%nat) /\
  (code = 0 <-> (L <= 20)%nat) /\
  (L = 20%nat -> code = 0) /\
  (L = 21%nat -> code = 1).
Proof.
  intros Hparse Hgit.
  rewrite (run_script_parsed git argv args Hparse).
  rewrite get_changed_files_outcome, Hgit. cbn [Z.eqb fst].
  split; [reflexivity|]. cbv zeta.
  destruct (Nat.ltb_spec 20 (length (splitlines output))) as [Hgt|Hle]; cbn [fst].
  - repeat split; intros; try lia; discriminate.
  - repeat split; intros; try lia; discriminate.
Qed.

(** C2.  Fail-open: when the diff tool fails, by a return code other than 0
    or because running it raised, [get_changed_files] returns the empty list
    and the script ends with exit code 0, never with 1. *)
Theorem tool_failure_fails_open
    (git : subprocess) (argv : list str) (args : Namespace) :
  parse_known_args argv = Parsed args ->
  tool_failed (git (diff_command (base_branch args) (pr_branch args))) ->
  (forall w,
     fst (get_changed_files git (base_branch args) (pr_branch args) w) = Return []) /\
  fst (run_script git argv) = 0 /\
  fst (run_script git argv) <> 1.
Proof.
  intros Hparse Hfail.
  rewrite (run_script_parsed git argv args Hparse).
  assert (Hempty : forall w,
    fst (get_changed_files git (base_branch args) (pr_branch args) w) = Return []).
  { intros w. rewrite get_changed_files_outcome.
    destruct (git (diff_command (base_branch args) (pr_branch args)))
      as [returncode output error|e]; [|reflexivity].
    cbn in Hfail. destruct (Z.eqb_spec returncode 0); [contradiction|reflexivity]. }
  split; [exact Hempty|].
  specialize (Hempty initial_world).
  destruct (get_changed_files git (base_branch args) (pr_branch args) initial_world)
    as [r w]. cbn in Hempty. subst r. cbn. split; [reflexivity|discriminate].
Qed.

(** C3.  [get_changed_files] never raises: whatever the tool does, it returns
    a list.  After a return code other than 0 it prints the captured error
    text (on a line that starts with [Error: ]) and returns the empty list;
    when running the tool raised, it prints that error the same way and
    returns the empty list. *)
Theorem get_changed_files_never_raises
    (git : subprocess) (base pr : pyval) (w : world) :
  (exists changed_files w',
     get_changed_files git base pr w = (Return changed_files, w')) /\
  (forall returncode output error,
     git (diff_command base pr) = Completed returncode output error ->
     returncode <> 0 ->
     get_changed_files git base pr w =
       (Return [], mkWorld (stdout w ++ py "Error: " ++ error ++ [LF])
                           (spawned w ++ [diff_command base pr]))) /\
  (forall e,
     git (diff_command base pr) = LaunchFailed e ->
     get_changed_files git base pr w =
       (Return [], mkWorld (stdout w ++ py "Error: " ++ e ++ [LF])
                           (spawned w ++ [diff_command base pr]))).
Proof.
  rewrite get_changed_files_outcome. cbv zeta.
  destruct (git (diff_command base pr)) as [returncode output error|e].
  - split; [destruct (Z.eqb returncode 0); eauto|].
    split; [|discriminate].
    intros rc' out' err' [= <- <- <-] Hrc.
    destruct (Z.eqb_spec returncode 0); [contradiction|reflexivity].
  - split; [eauto|]. split; [discriminate|].
    now intros e' [= <-].
Qed.

(** C4, as the code has it.  After a successful run of the tool (return
    code 0), [get_changed_files] returns [splitlines] of the captured standard
    output and prints nothing.  When the tool wrote its paths one per line,
    each followed by a newline, and no path holds a line boundary, the list
    returned is that list of paths, in the same order and with its
    duplicates; empty output gives the empty list. *)
Theorem get_changed_files_returns_lines
    (git : subprocess) (base pr : pyval) (w : world) (output error : str) :
  git (diff_command base pr) = Completed 0 output error ->
  get_changed_files git base pr w =
    (Return (splitlines output),
     mkWorld (stdout w) (spawned w ++ [diff_command base pr])) /\
  (forall paths,
     forallb one_line paths = true ->
     output = unlines paths ->
     fst (get_changed_files git base pr w) = Return paths) /\
  (output = [] -> fst (get_changed_files git base pr w) = Return []).
Proof.
  intros Hgit. rewrite get_changed_files_outcome, Hgit. cbn [Z.eqb fst].
  split; [reflexivity|]. split.
  - intros paths Hpaths ->. now rewrite splitlines_unlines.
  - now intros ->.
Qed.

(** C5.  When the list [get_changed_files] returns has more than 20 entries,
    the script prints the line [Number of changed files exceeds 20.] (the
    message and the newline of [print]), nothing else, and ends with exit
    code 1. *)
Theorem over_limit_prints_message_and_exits_1
    (git : subprocess) (argv : list str) (args : Namespace)
    (changed_files : list str) (w : world) :
  parse_known_args argv = Parsed args ->
  get_changed_files git (base_branch args) (pr_branch args) initial_world
    = (Return changed_files, w) ->
  (20 < length changed_files)%nat ->
  run_script git argv =
    (1, mkWorld (py "Number of changed files exceeds 20." ++ [LF])
                [diff_command (base_branch args) (pr_branch args)]).
Proof.
  intros Hparse Hfiles Hlen.
  rewrite (run_script_parsed git argv args Hparse), Hfiles.
  apply Nat.ltb_lt in Hlen as Hltb. rewrite Hltb.
  rewrite get_changed_files_outcome in Hfiles. cbv zeta in Hfiles.
  destruct (git (diff_command (base_branch args) (pr_branch args)))
    as [returncode output error|e].
  - destruct (Z.eqb returncode 0); injection Hfiles as <- <-.
    + reflexivity.
    + cbn in Hlen. lia.
  - injection Hfiles as <- <-. cbn in Hlen. lia.
Qed.

(** C6, as the code has it.  On a run past argument parsing the standard
    output is one of three texts: nothing, when the tool succeeded with at
    most 20 lines; [Error: ] followed by the error text and the newline of
    [print], where the error text is the tool's captured standard error after
    a return code other than 0 or the message of the exception when running
    it raised; or the over-limit message and the newline of [print], when the
    tool succeeded with more than 20 lines. *)
Theorem stdout_is_one_of_three
    (git : subprocess) (argv : list str) (args : Namespace) :
  parse_known_args argv = Parsed args ->
  let tool := git (diff_command (base_branch args) (pr_branch args)) in
  let out := stdout (snd (run_script git argv)) in
  (out = [] /\
   exists output error,
     tool = Completed 0 output error /\ (length (splitlines output) <= 20)%nat) \/
  (exists text,
     out = py "Error: " ++ text ++ [LF] /\
     ((exists returncode output,
         returncode <> 0 /\ tool = Completed returncode output text) \/
      tool = LaunchFailed text)) \/
  (out = py "Number of changed files exceeds 20." ++ [LF] /\
   exists output error,
     tool = Completed 0 output error /\ (20 < length (splitlines output))%nat).
Proof.
  intros Hparse. cbv zeta.
  rewrite (run_script_parsed git argv args Hparse), get_changed_files_outcome.
  cbv zeta.
  destruct (git (diff_command (base_branch args) (pr_branch args)))
    as [returncode output error|e].
  - destruct (Z.eqb_spec returncode 0) as [->|Hrc].
    + destruct (Nat.ltb_spec 20 (length (splitlines output))) as [Hgt|Hle].
      * right; right. split; [reflexivity|eauto].
      * left. split; [reflexivity|eauto].
    + right; left. exists error. split; [reflexivity|]. left; eauto.
  - right; left. exists e. split; [reflexivity|]. now right.
Qed.


(** C9.  [splitlines] and the count.  The output [a\nb\n] gives two entries;
    a newline at the very end of output that ends in ordinary text adds no
    entry; in output written one line per entry every blank line comes back
    as an empty string, so the list returned has as many empty strings as
    there were blank lines; and these entries count towards the limit: the
    script exits with 1 exactly when the lines, blank ones included, are more
    than 20. *)
Theorem splitlines_trailing_newline_and_blank_lines :
  splitlines (py "a" ++ [LF] ++ py "b" ++ [LF]) = [py "a"; py "b"] /\
  (forall s c,
     is_linebreak c = false ->
     splitlines (s ++ [c] ++ [LF]) = splitlines (s ++ [c])) /\
  (forall lines,
     forallb one_line lines = true ->
     splitlines (unlines lines) = lines /\
     length (filter (str_eqb []) (splitlines (unlines lines)))
       = length (filter (str_eqb []) lines)) /\
  (forall git argv args lines error,
     parse_known_args argv = Parsed args ->
     forallb one_line lines = true ->
     git (diff_command (base_branch args) (pr_branch args))
       = Completed 0 (unlines lines) error ->
     fst (get_changed_files git (base_branch args) (pr_branch args) initial_world)
       = Return lines /\
     (fst (run_script git argv) = 1 <-> (20 < length lines)%nat)).
Proof.
  split; [reflexivity|]. split; [|split].
  - intros s c Hc. unfold splitlines.
    now apply (splitlines_from_final_newline (length s)).
  - intros lines Hlines. now rewrite splitlines_unlines.
  - intros git argv args lines error Hparse Hlines Hgit.
    rewrite (run_script_parsed git argv args Hparse).
    rewrite get_changed_files_outcome, Hgit. cbn [Z.eqb fst].
    rewrite (splitlines_unlines lines Hlines). split; [reflexivity|].
    destruct (Nat.ltb_spec 20 (length lines)); cbn [fst];
      split; intros; try lia; discriminate.
Qed.

(** C10.  [get_changed_files] checks nothing about its arguments: for any two
    strings it spawns exactly one command,
    [git diff --name-only origin/<base_branch>...<pr_branch>], with [origin/]
    put before the base branch and the pull-request branch as given; for two
    empty strings the last argument is [origin/...]. *)
Theorem get_changed_files_command
    (git : subprocess) (base pr : str) (w : world) :
  spawned (snd (get_changed_files git (PyStr base) (PyStr pr) w)) =
    spawned w ++
    [[py "git"; py "diff"; py "--name-only"; py "origin/" ++ base ++ py "..." ++ pr]] /\
  spawned (snd (get_changed_files git (PyStr []) (PyStr []) w)) =
    spawned w ++ [[py "git"; py "diff"; py "--name-only"; py "origin/..."]].
Proof.
  rewrite !get_changed_files_outcome. cbv zeta. split.
  - destruct (git (diff_command (PyStr base) (PyStr pr))) as [rc ? ?|?];
      [destruct (Z.eqb rc 0)|]; reflexivity.
  - destruct (git (diff_command (PyStr []) (PyStr []))) as [rc ? ?|?];
      [destruct (Z.eqb rc 0)|]; reflexivity.
Qed.

End Properties.


(** ** Concrete runs: witnesses and counterexamples *)

Lemma main_exit_code_threshold_witness :
  parse_known_args (rt:=example_runtime) example_argv = Parsed example_args /\
  fst (run_script (rt:=example_runtime) (git_lists (repeat (py "f") 20)) example_argv) = 0 /\
  fst (run_script (rt:=example_runtime) (git_lists (repeat (py "f") 21)) example_argv) = 1.
Proof.
  split; [reflexivity|]. split.
  - pose proof (main_exit_code_threshold (rt:=example_runtime)
                  (git_lists (repeat (py "f") 20)) example_argv example_args
                  (unlines (repeat (py "f") 20)) [] eq_refl eq_refl)
      as (_ & _ & _ & H20 & _).
    apply H20. reflexivity.
  - pose proof (main_exit_code_threshold (rt:=example_runtime)
                  (git_lists (repeat (py "f") 21)) example_argv example_args
                  (unlines (repeat (py "f") 21)) [] eq_refl eq_refl)
      as (_ & _ & _ & _ & H21).
    apply H21. reflexivity.
Defined.

Lemma tool_failure_fails_open_witness :
  tool_failed (git_missing example_command) /\
  tool_failed (git_fatal example_command) /\
  fst (run_script (rt:=example_runtime) git_missing example_argv) = 0 /\
  fst (run_script (rt:=example_runtime) git_fatal example_argv) = 0.
Proof.
  split; [exact I|]. split; [discriminate|]. split.
  - apply (tool_failure_fails_open (rt:=example_runtime)
             git_missing example_argv example_args eq_refl I).
  - apply (tool_failure_fails_open (rt:=example_runtime)
             git_fatal example_argv example_args eq_refl).
    discriminate.
Defined.

Lemma get_changed_files_never_raises_witness :
  get_changed_files (rt:=example_runtime) git_fatal
    (PyStr (py "main")) (PyStr (py "feature-x")) initial_world
  = (Return [], mkWorld (py "Error: fatal: bad revision" ++ [LF]) [example_command]) /\
  get_changed_files (rt:=example_runtime) git_missing
    (PyStr (py "main")) (PyStr (py "feature-x")) initial_world
  = (Return [],
     mkWorld (py "Error: [Errno 2] No such file or directory: 'git'" ++ [LF])
             [example_command]).
Proof.
  split.
  - apply (proj1 (proj2 (get_changed_files_never_raises (rt:=example_runtime)
             git_fatal (PyStr (py "main")) (PyStr (py "feature-x")) initial_world))
             128 [] (py "fatal: bad revision") eq_refl).
    discriminate.
  - apply (proj2 (proj2 (get_changed_files_never_raises (rt:=example_runtime)
             git_missing (PyStr (py "main")) (PyStr (py "feature-x")) initial_world))
             (py "[Errno 2] No such file or directory: 'git'") eq_refl).
Defined.

(** C4 as claimed fails: the tool wrote one line, and the list has two
    entries, because the line separator U+2028 inside the path ends an entry
    as well. *)
Lemma line_separator_splits_one_line :
  git_line_separator example_command
    = Completed 0 (py "docs/a" ++ [8232%N] ++ py "b.md" ++ [LF]) [] /\
  fst (get_changed_files (rt:=example_runtime) git_line_separator
         (PyStr (py "main")) (PyStr (py "feature-x")) initial_world)
    = Return [py "docs/a"; py "b.md"] /\
  fst (get_changed_files (rt:=example_runtime) git_line_separator
         (PyStr (py "main")) (PyStr (py "feature-x")) initial_world)
    <> Return [py "docs/a" ++ [8232%N] ++ py "b.md"].
Proof.
  split; [reflexivity|]. split; [reflexivity|]. vm_compute. discriminate.
Qed.

Lemma get_changed_files_returns_lines_witness :
  git_lists example_paths example_command = Completed 0 (unlines example_paths) [] /\
  forallb one_line example_paths = true /\
  fst (get_changed_files (rt:=example_runtime) (git_lists example_paths)
         (PyStr (py "main")) (PyStr (py "feature-x")) initial_world)
  = Return [py "src/app.ts"; py "README.md"; py "src/app.ts"].
Proof.
  split; [reflexivity|]. split; [reflexivity|].
  apply (proj1 (proj2 (get_changed_files_returns_lines (rt:=example_runtime)
           (git_lists example_paths) (PyStr (py "main")) (PyStr (py "feature-x"))
           initial_world (unlines example_paths) [] eq_refl))
           example_paths eq_refl eq_refl).
Defined.

Lemma over_limit_prints_message_and_exits_1_witness :
  get_changed_files (rt:=example_runtime) (git_lists (repeat (py "f") 25))
    (PyStr (py "main")) (PyStr (py "feature-x")) initial_world
  = (Return (repeat (py "f") 25), mkWorld [] [example_command]) /\
  (20 < length (repeat (py "f") 25))%nat /\
  run_script (rt:=example_runtime) (git_lists (repeat (py "f") 25)) example_argv
  = (1, mkWorld (py "Number of changed files exceeds 20." ++ [LF]) [example_command]).
Proof.
  split; [reflexivity|]. split; [cbn; lia|].
  apply (over_limit_prints_message_and_exits_1 (rt:=example_runtime)
           (git_lists (repeat (py "f") 25)) example_argv example_args
           (repeat (py "f") 25) (mkWorld [] [example_command]) eq_refl eq_refl).
  cbn; lia.
Defined.

(** C6 as claimed fails: after a failed diff the standard output is not the
    tool's error text as it stands (with or without the newline of [print]):
    the script puts [Error: ] in front of it. *)
Lemma stdout_error_text_has_prefix :
  parse_known_args (rt:=example_runtime) example_argv = Parsed example_args /\
  git_fatal example_command = Completed 128 [] (py "fatal: bad revision") /\
  stdout (snd (run_script (rt:=example_runtime) git_fatal example_argv))
    = py "Error: fatal: bad revision" ++ [LF] /\
  stdout (snd (run_script (rt:=example_runtime) git_fatal example_argv)) <> [] /\
  stdout (snd (run_script (rt:=example_runtime) git_fatal example_argv))
    <> py "fatal: bad revision" /\
  stdout (snd (run_script (rt:=example_runtime) git_fatal example_argv))
    <> py "fatal: bad revision" ++ [LF] /\
  stdout (snd (run_script (rt:=example_runtime) git_fatal example_argv))
    <> py "Number of changed files exceeds 20." /\
  stdout (snd (run_script (rt:=example_runtime) git_fatal example_argv))
    <> py "Number of changed files exceeds 20." ++ [LF].
Proof.
  repeat split; try reflexivity; vm_compute; discriminate.
Qed.

Lemma stdout_is_one_of_three_witness :
  parse_known_args (rt:=example_runtime) example_argv = Parsed example_args /\
  exists text,
    stdout (snd (run_script (rt:=example_runtime) git_fatal example_argv))
      = py "Error: " ++ text ++ [LF].
Proof.
  split; [reflexivity|].
  destruct (stdout_is_one_of_three (rt:=example_runtime)
              git_fatal example_argv example_args eq_refl)
    as [[Hout _]|[(text & Hout & _)|[Hout _]]].
  - vm_compute in Hout. discriminate Hout.
  - exists text. exact Hout.
  - vm_compute in Hout. discriminate Hout.
Defined.





Lemma splitlines_trailing_newline_and_blank_lines_witness :
  forallb one_line lines_with_blank = true /\
  splitlines (unlines lines_with_blank) = lines_with_blank /\
  length lines_with_blank = 21%nat /\
  fst (run_script (rt:=example_runtime) (git_lists lines_with_blank) example_argv) = 1 /\
  splitlines (py "a.py" ++ [LF]) = splitlines (py "a.py").
Proof.
  destruct (splitlines_trailing_newline_and_blank_lines (rt:=example_runtime))
    as (_ & Hfinal & Hblank & Hcount).
  split; [reflexivity|]. split; [apply Hblank; reflexivity|].
  split; [reflexivity|]. split.
  - apply (Hcount (git_lists lines_with_blank) example_argv example_args
             lines_with_blank [] eq_refl eq_refl eq_refl).
    cbn; lia.
  - apply (Hfinal (py "a.p") 121%N). reflexivity.
Defined.

(** ** Further lemmas on [splitlines] *)

Lemma one_line_app (a b : str) : one_line (a ++ b) = one_line a && one_line b.
Proof. unfold one_line. apply forallb_app. Qed.

(** Text without a boundary only extends the line being read. *)
Lemma splitlines_from_prefix (l : str) :
  one_line l = true ->
  forall line t, splitlines_from line (l ++ t) = splitlines_from (line ++ l) t.
Proof.
  induction l as [|c l IH]; intros Hl line t.
  - now rewrite app_nil_r.
  - cbn in Hl. apply andb_true_iff in Hl as [Hc Hl].
    apply negb_true_iff in Hc.
    cbn [app splitlines_from]. rewrite Hc, (IH Hl), <- app_assoc.
    reflexivity.
Qed.

Lemma splitlines_from_entries (n : nat) :
  forall s, (length s <= n)%nat ->
  forall line, one_line line = true ->
    Forall (fun l => one_line l = true) (splitlines_from line s).
Proof.
  induction n as [|n IH]; intros s Hn line Hline.
  - destruct s; [|cbn in Hn; lia]. cbn. destruct line; constructor; auto.
  - destruct s as [|x s]; [cbn; destruct line; constructor; auto|].
    cbn in Hn. cbn [splitlines_from].
    destruct (is_linebreak x) eqn:Hx.
    + constructor; [exact Hline|].
      destruct (N.eqb x CR); [|apply IH; [lia|reflexivity]].
      destruct s as [|d s]; [apply (IH []); [cbn; lia|reflexivity]|].
      cbn in Hn. destruct (N.eqb d LF).
      * apply IH; [lia|reflexivity].
      * apply (IH (d :: s)); [cbn; lia|reflexivity].
    + apply IH; [lia|]. rewrite one_line_app, Hline. cbn. now rewrite Hx.
Qed.

Lemma splitlines_from_nil (s : str) :
  forall line, splitlines_from line s = [] -> line = [] /\ s = [].
Proof.
  induction s as [|c s IH]; intros line H.
  - cbn in H. destruct line; [auto|discriminate].
  - cbn [splitlines_from] in H. destruct (is_linebreak c); [discriminate|].
    apply IH in H as [H _]. destruct line; discriminate.
Qed.

Lemma splitlines_from_append (n : nat) :
  forall a, (length a <= n)%nat ->
  forall line b,
    splitlines_from line (a ++ LF :: b)
    = splitlines_from line (a ++ [LF]) ++ splitlines_from [] b.
Proof.
  induction n as [|n IH]; intros a Hn line b.
  - destruct a; [|cbn in Hn; lia].
    cbn [app splitlines_from]. rewrite is_linebreak_LF. reflexivity.
  - destruct a as [|x a].
    { cbn [app splitlines_from]. rewrite is_linebreak_LF. reflexivity. }
    cbn in Hn. cbn [app splitlines_from].
    destruct (is_linebreak x); [|apply IH; lia].
    rewrite <- app_comm_cons. f_equal.
    destruct (N.eqb x CR); [|apply IH; lia].
    destruct a as [|d a]; cbn [app].
    + reflexivity.
    + cbn in Hn. destruct (N.eqb d LF).
      * apply IH; lia.
      * apply (IH (d :: a)). cbn; lia.
Qed.

Lemma splitlines_from_length (n : nat) :
  forall s, (length s <= n)%nat ->
  forall line,
    (length (splitlines_from line s) <= count_boundaries s + 1)%nat.
Proof.
  unfold count_boundaries.
  induction n as [|n IH]; intros s Hn line.
  - destruct s; [|cbn in Hn; lia]. cbn. destruct line; cbn; lia.
  - destruct s as [|x s]; [cbn; destruct line; cbn; lia|].
    cbn in Hn. cbn [splitlines_from filter].
    destruct (is_linebreak x).
    + cbn [length].
      destruct (N.eqb x CR); [|specialize (IH s ltac:(lia) []); lia].
      destruct s as [|d s]; [cbn; lia|].
      cbn in Hn. destruct (N.eqb d LF).
      * specialize (IH s ltac:(lia) []). cbn [filter].
        destruct (is_linebreak d); cbn [length]; lia.
      * specialize (IH (d :: s) ltac:(cbn; lia) []). lia.
    + apply IH. lia.
Qed.

(** ** Further lemmas on the parser and on [main] *)

Section FurtherLemmas.
Context {rt : Runtime}.

(** [main], path by path. *)
Lemma main_outcome (git : subprocess) (argv : list str) :
  main git argv initial_world =
  match parse_known_args argv with
  | Parsed args =>
      match get_changed_files git (base_branch args) (pr_branch args) initial_world with
      | (Return changed_files, w) =>
          if Nat.ltb 20 (length changed_files)
          then (Raise (SystemExit 1),
                mkWorld (stdout w ++ over_limit_message ++ [LF]) (spawned w))
          else (Return tt, w)
      | (Raise e, w) => (Raise e, w)
      end
  | HelpExit => (Raise (SystemExit 0), mkWorld format_help [])
  | ErrorExit => (Raise (SystemExit 2), initial_world)
  end.
Proof.
  unfold main, parse_args, bind.
  destruct (parse_known_args argv) as [args| |]; try reflexivity.
  cbn [ret].
  destruct (get_changed_files git (base_branch args) (pr_branch args) initial_world)
    as [[changed_files|e] w]; [|reflexivity].
  destruct (Nat.ltb 20 (length changed_files)); reflexivity.
Qed.

(** Once an argument string is left over, the parse cannot succeed. *)
Lemma consume_extras (pattern : list token) :
  forall seen extras after_value dash_waiting args,
    extras <> [] ->
    consume pattern seen extras after_value dash_waiting <> Parsed args.
Proof.
  induction pattern as [|t pattern IH]; intros seen extras av dw args Hextras.
  - cbn. destruct seen as [|b [|p [|x seen]]]; try discriminate.
    destruct dw; destruct extras; try discriminate; try contradiction.
  - destruct t as [a|a t|]; cbn [consume].
    + destruct (Nat.ltb (length seen) 2); apply IH; [exact Hextras|].
      destruct extras; [contradiction|discriminate].
    + destruct (consume_optional t); try discriminate.
      apply IH. destruct extras; discriminate.
    + destruct av; now apply IH.
Qed.

(** A successful parse saw no option and exactly as many arguments as there
    were positionals left to fill. *)
Lemma consume_Parsed_exact (pattern : list token) :
  forall seen extras after_value dash_waiting args,
    consume pattern seen extras after_value dash_waiting = Parsed args ->
    (length seen + length (filter is_argument pattern) = 2)%nat /\
    length (filter is_option pattern) = 0%nat.
Proof.
  induction pattern as [|t pattern IH]; intros seen extras av dw args H.
  - cbn in H. destruct seen as [|b [|p [|x seen]]]; try discriminate.
    cbn. lia.
  - destruct t as [a|a t|]; cbn [consume] in H;
      cbn [filter is_argument is_option length].
    + destruct (Nat.ltb_spec (length seen) 2) as [Hlt|Hge].
      * apply IH in H. rewrite length_app in H. cbn in H. lia.
      * exfalso. revert H. apply consume_extras.
        destruct extras, dw; discriminate.
    + exfalso. destruct (consume_optional t); try discriminate.
      revert H. apply consume_extras. destruct extras; discriminate.
    + destruct av; now apply IH in H.
Qed.

Lemma parse_optional_plain (arg_string : str) :
  begins_with_dash arg_string = false ->
  parse_optional arg_string = Positional.
Proof.
  destruct arg_string as [|c rest]; [reflexivity|].
  cbn [begins_with_dash]. intros Hc. unfold parse_optional, dash.
  now rewrite Hc.
Qed.

Lemma plain_is_not_double_dash (arg_string : str) :
  begins_with_dash arg_string = false ->
  str_eqb arg_string double_dash = false.
Proof.
  destruct arg_string as [|c rest]; [reflexivity|].
  unfold double_dash, dash. cbn [begins_with_dash str_eqb]. now intros ->.
Qed.

End FurtherLemmas.

(** ** Further properties of the script *)

Section FurtherProperties.
Context {rt : Runtime}.

(** X1.  No exception other than [SystemExit] leaves [main], and the code of
    a [SystemExit] is 0, 1 or 2; so the exit status of every run, whatever
    the arguments and whatever the tool does, is 0, 1 or 2. *)
Theorem main_raises_only_SystemExit (git : subprocess) (argv : list str) :
  match fst (main git argv initial_world) with
  | Return _ => True
  | Raise (SystemExit code) => code = 0 \/ code = 1 \/ code = 2
  | Raise (Exception _) => False
  end /\
  (fst (run_script git argv) = 0 \/
   fst (run_script git argv) = 1 \/
   fst (run_script git argv) = 2).
Proof.
  unfold run_script. rewrite main_outcome.
  destruct (parse_known_args argv) as [args| |]; [|cbn; auto..].
  rewrite get_changed_files_outcome. cbv zeta.
  destruct (git (diff_command (base_branch args) (pr_branch args)))
    as [returncode output error|e];
    [destruct (Z.eqb returncode 0);
     [destruct (Nat.ltb 20 (length (splitlines output)))|]|];
    cbn; auto.
Qed.


(** X3.  Exit status 2 comes from the argument parser and from nowhere else:
    a run ends with 2 exactly when the parser reports an error, and such a
    run has written nothing to standard output and spawned nothing. *)
Theorem exit_status_2_only_from_parser (git : subprocess) (argv : list str) :
  (fst (run_script git argv) = 2 <-> parse_known_args argv = ErrorExit) /\
  (fst (run_script git argv) = 2 -> snd (run_script git argv) = initial_world).
Proof.
  destruct (parse_known_args argv) as [args| |] eqn:Hparse.
  - rewrite (run_script_parsed git argv args Hparse), get_changed_files_outcome.
    cbv zeta.
    destruct (git (diff_command (base_branch args) (pr_branch args)))
      as [returncode output error|e];
      [destruct (Z.eqb returncode 0);
       [destruct (Nat.ltb 20 (length (splitlines output)))|]|];
      cbn; (split; [split|]; discriminate).
  - rewrite (run_script_help git argv Hparse). cbn.
    split; [split|]; discriminate.
  - rewrite (run_script_error git argv Hparse). cbn. split; [split|]; reflexivity.
Qed.

(** X4.  A run spawns at most one command: none when the parser ended it,
    and otherwise exactly [git diff --name-only origin/<base>...<pr>] built
    from the two values of the namespace, whatever the tool then does. *)
Theorem run_spawns_at_most_one_command (git : subprocess) (argv : list str) :
  spawned (snd (run_script git argv)) =
  match parse_known_args argv with
  | Parsed args =>
      [[py "git"; py "diff"; py "--name-only";
        py "origin/" ++ format (base_branch args) ++ py "..."
          ++ format (pr_branch args)]]
  | HelpExit | ErrorExit => []
  end.
Proof.
  destruct (parse_known_args argv) as [args| |] eqn:Hparse.
  - rewrite (run_script_parsed git argv args Hparse), get_changed_files_outcome.
    cbv zeta.
    destruct (git (diff_command (base_branch args) (pr_branch args)))
      as [returncode output error|e];
      [destruct (Z.eqb returncode 0);
       [destruct (Nat.ltb 20 (length (splitlines output)))|]|];
      reflexivity.
  - now rewrite (run_script_help git argv Hparse).
  - now rewrite (run_script_error git argv Hparse).
Qed.

(** X5.  Two argument strings that do not start with [-] (the empty string
    included) are taken as they are, the first as base branch and the second
    as pull-request branch, and the run spawns
    [git diff --name-only origin/<first>...<second>]. *)
Theorem plain_branch_names_reach_git (git : subprocess) (base pr : str) :
  begins_with_dash base = false ->
  begins_with_dash pr = false ->
  parse_known_args [base; pr] = Parsed (mkNamespace (PyStr base) (PyStr pr)) /\
  spawned (snd (run_script git [base; pr])) =
    [[py "git"; py "diff"; py "--name-only"; py "origin/" ++ base ++ py "..." ++ pr]].
Proof.
  intros Hbase Hpr.
  assert (Hparse :
    parse_known_args [base; pr] = Parsed (mkNamespace (PyStr base) (PyStr pr))).
  { unfold parse_known_args. cbn [arg_strings_pattern].
    rewrite !plain_is_not_double_dash, !parse_optional_plain by assumption.
    cbn [consume length Nat.ltb Nat.leb app].
    unfold get_values. cbn [remove_first].
    rewrite !plain_is_not_double_dash by assumption. reflexivity. }
  split; [exact Hparse|].
  rewrite (run_script_parsed git _ _ Hparse), get_changed_files_outcome.
  cbv zeta. cbn [base_branch pr_branch].
  destruct (git (diff_command (PyStr base) (PyStr pr)))
    as [returncode output error|e];
    [destruct (Z.eqb returncode 0);
     [destruct (Nat.ltb 20 (length (splitlines output)))|]|];
    reflexivity.
Qed.

(** X6.  The tool is run only for a command line with exactly two argument
    strings read as arguments and none read as an option: a third argument
    or any option, known to the parser or not, keeps the run from reaching
    [get_changed_files]. *)
Theorem git_runs_only_for_two_arguments (git : subprocess) (argv : list str) :
  spawned (snd (run_script git argv)) <> [] ->
  positional_count argv = 2%nat /\ option_count argv = 0%nat.
Proof.
  intros Hspawned.
  destruct (parse_known_args argv) as [args| |] eqn:Hparse.
  - unfold parse_known_args in Hparse. unfold positional_count, option_count.
    destruct (arg_strings_pattern argv) as [pattern|]; [|discriminate].
    apply consume_Parsed_exact in Hparse. cbn in Hparse. exact Hparse.
  - rewrite (run_script_help git argv Hparse) in Hspawned. now contradiction Hspawned.
  - rewrite (run_script_error git argv Hparse) in Hspawned. now contradiction Hspawned.
Qed.

(** X7.  No entry of the list [get_changed_files] returns holds a line
    boundary: whatever the tool wrote, a reported path has no newline,
    carriage return or other separator inside. *)
Theorem changed_files_hold_no_boundary
    (git : subprocess) (base pr : pyval) (w w' : world) (changed_files : list str) :
  get_changed_files git base pr w = (Return changed_files, w') ->
  Forall (fun path => one_line path = true) changed_files.
Proof.
  rewrite get_changed_files_outcome. cbv zeta.
  destruct (git (diff_command base pr)) as [returncode output error|e].
  - destruct (Z.eqb returncode 0); intros [= <- _]; [|constructor].
    now apply (splitlines_from_entries (length output)).
  - intros [= <- _]. constructor.
Qed.

(** X8.  After a successful run of the tool the list returned is empty only
    when the output was empty: any output at all, a lone newline included,
    gives at least one entry. *)
Theorem empty_list_only_for_empty_output
    (git : subprocess) (base pr : pyval) (w : world) (output error : str) :
  git (diff_command base pr) = Completed 0 output error ->
  (fst (get_changed_files git base pr w) = Return [] <-> output = []).
Proof.
  intros Hgit. rewrite get_changed_files_outcome, Hgit. cbn [Z.eqb fst].
  split.
  - intros [= H]. now apply splitlines_from_nil in H.
  - now intros ->.
Qed.

(** X9.  Output that continues after a newline is split piece by piece: the
    lines of [a], a newline and [b] are the lines of [a] with its newline
    followed by the lines of [b], and so the counts add up. *)
Theorem splitlines_of_appended_output (a b : str) :
  splitlines ((a ++ [LF]) ++ b) = splitlines (a ++ [LF]) ++ splitlines b /\
  length (splitlines ((a ++ [LF]) ++ b))
    = (length (splitlines (a ++ [LF])) + length (splitlines b))%nat.
Proof.
  assert (H : splitlines ((a ++ [LF]) ++ b) = splitlines (a ++ [LF]) ++ splitlines b).
  { unfold splitlines. rewrite <- app_assoc. cbn [app].
    now apply (splitlines_from_append (length a)). }
  split; [exact H|]. now rewrite H, length_app.
Qed.

(** X10.  After a successful run of the tool every line boundary in the
    captured output other than the carriage return ends an entry, not the
    newline alone: when the output is text without a boundary, one such code
    point and a rest, the list returned is that text followed by the entries
    of the rest. *)
Theorem every_boundary_ends_an_entry
    (git : subprocess) (base pr : pyval) (w : world)
    (l : str) (c : char) (s error : str) :
  one_line l = true ->
  is_linebreak c = true ->
  c <> CR ->
  git (diff_command base pr) = Completed 0 (l ++ c :: s) error ->
  fst (get_changed_files git base pr w) = Return (l :: splitlines s).
Proof.
  intros Hl Hc Hcr Hgit. rewrite get_changed_files_outcome, Hgit. cbn [Z.eqb fst].
  unfold splitlines. rewrite (splitlines_from_prefix l Hl).
  cbn [app splitlines_from]. rewrite Hc.
  now destruct (N.eqb_spec c CR).
Qed.

(** X11.  The list has at most one entry more than the output has line
    boundaries; a successful diff whose output holds fewer than 20 of them
    can therefore never make the run end with status 1. *)
Theorem entries_bounded_by_boundaries :
  (forall s, (length (splitlines s) <= count_boundaries s + 1)%nat) /\
  (forall git argv args output error,
     parse_known_args argv = Parsed args ->
     git (diff_command (base_branch args) (pr_branch args))
       = Completed 0 output error ->
     (count_boundaries output < 20)%nat ->
     run_script git argv
       = (0, mkWorld [] [diff_command (base_branch args) (pr_branch args)])).
Proof.
  assert (Hbound : forall s, (length (splitlines s) <= count_boundaries s + 1)%nat)
    by (intros s; apply (splitlines_from_length (length s)); lia).
  split; [exact Hbound|].
  intros git argv args output error Hparse Hgit Hcount.
  rewrite (run_script_parsed git argv args Hparse), get_changed_files_outcome, Hgit.
  cbn [Z.eqb]. specialize (Hbound output).
  destruct (Nat.ltb_spec 20 (length (splitlines output))); [lia|reflexivity].
Qed.

End FurtherProperties.

(** ** Concrete runs for the further properties *)


Lemma exit_status_2_only_from_parser_witness :
  parse_known_args (rt:=example_runtime) [py "main"; py "feature-x"; py "extra"]
    = ErrorExit /\
  fst (run_script (rt:=example_runtime) git_fatal
         [py "main"; py "feature-x"; py "extra"]) = 2 /\
  snd (run_script (rt:=example_runtime) git_fatal
         [py "main"; py "feature-x"; py "extra"]) = initial_world.
Proof.
  destruct (exit_status_2_only_from_parser (rt:=example_runtime) git_fatal
              [py "main"; py "feature-x"; py "extra"]) as [Hiff Hworld].
  split; [reflexivity|].
  assert (H2 : fst (run_script (rt:=example_runtime) git_fatal
                      [py "main"; py "feature-x"; py "extra"]) = 2)
    by (apply Hiff; reflexivity).
  split; [exact H2|exact (Hworld H2)].
Defined.

Lemma plain_branch_names_reach_git_witness :
  begins_with_dash (py "main") = false /\
  begins_with_dash (py "feature-x") = false /\
  spawned (snd (run_script (rt:=example_runtime) git_missing example_argv))
    = [example_command].
Proof.
  split; [reflexivity|]. split; [reflexivity|].
  apply (plain_branch_names_reach_git (rt:=example_runtime) git_missing
           (py "main") (py "feature-x") eq_refl eq_refl).
Defined.

Lemma git_runs_only_for_two_arguments_witness :
  spawned (snd (run_script (rt:=example_runtime) git_fatal example_argv)) <> [] /\
  positional_count (rt:=example_runtime) example_argv = 2%nat /\
  option_count (rt:=example_runtime) example_argv = 0%nat.
Proof.
  assert (Hspawned :
    spawned (snd (run_script (rt:=example_runtime) git_fatal example_argv)) <> [])
    by (vm_compute; discriminate).
  split; [exact Hspawned|].
  exact (git_runs_only_for_two_arguments (rt:=example_runtime)
           git_fatal example_argv Hspawned).
Defined.

Lemma changed_files_hold_no_boundary_witness :
  get_changed_files (rt:=example_runtime) git_form_feed
    (PyStr (py "main")) (PyStr (py "feature-x")) initial_world
  = (Return [py "docs/a"; py "b.md"], mkWorld [] [example_command]) /\
  Forall (fun path => one_line path = true) [py "docs/a"; py "b.md"].
Proof.
  split; [reflexivity|].
  apply (changed_files_hold_no_boundary (rt:=example_runtime) git_form_feed
           (PyStr (py "main")) (PyStr (py "feature-x"))
           initial_world (mkWorld [] [example_command])).
  reflexivity.
Defined.

Lemma empty_list_only_for_empty_output_witness :
  git_lists [[]] example_command = Completed 0 [LF] [] /\
  (fst (get_changed_files (rt:=example_runtime) (git_lists [[]])
          (PyStr (py "main")) (PyStr (py "feature-x")) initial_world) = Return []
   <-> [LF] = []).
Proof.
  split; [reflexivity|].
  apply (empty_list_only_for_empty_output (rt:=example_runtime) (git_lists [[]])
           (PyStr (py "main")) (PyStr (py "feature-x")) initial_world [LF] []).
  reflexivity.
Defined.

Lemma every_boundary_ends_an_entry_witness :
  one_line (py "docs/a") = true /\
  is_linebreak 8232%N = true /\
  8232%N <> CR /\
  fst (get_changed_files (rt:=example_runtime) git_line_separator
         (PyStr (py "main")) (PyStr (py "feature-x")) initial_world)
    = Return [py "docs/a"; py "b.md"].
Proof.
  split; [reflexivity|]. split; [reflexivity|]. split; [discriminate|].
  apply (every_boundary_ends_an_entry (rt:=example_runtime) git_line_separator
           (PyStr (py "main")) (PyStr (py "feature-x")) initial_world
           (py "docs/a") 8232%N (py "b.md" ++ [LF]) [] eq_refl eq_refl).
  - discriminate.
  - reflexivity.
Defined.

Lemma entries_bounded_by_boundaries_witness :
  parse_known_args (rt:=example_runtime) example_argv = Parsed example_args /\
  (count_boundaries (unlines example_paths) < 20)%nat /\
  run_script (rt:=example_runtime) (git_lists example_paths) example_argv
    = (0, mkWorld [] [example_command]).
Proof.
  split; [reflexivity|]. split; [apply Nat.ltb_lt; reflexivity|].
  apply (proj2 (entries_bounded_by_boundaries (rt:=example_runtime))
           (git_lists example_paths) example_argv example_args
           (unlines example_paths) [] eq_refl eq_refl).
  apply Nat.ltb_lt; reflexivity.
Defined.
